(** * cpp11_learn: a model of [main.cpp] and the properties of its demonstrations

    [main.cpp] is a sequence of small demonstrations of C++11 features whose
    only observable behaviour is the text inserted into [std::cout].  The
    development below embeds

    - [std::cout] as the list of insertions made with [operator<<],
    - the free store as a finite map from addresses to objects,
    - [std::unique_ptr] and [std::shared_ptr] as typed handles over that store
      (the control blocks of [shared_ptr] are a second finite map),
    - the two local class hierarchies [A] / [B : A] as class tables,

    and then the functions of the file, statement by statement, in a state
    and failure monad. *)

From Stdlib Require Import ZArith Ascii String DecimalString HexadecimalString.
From stdpp Require Import gmap strings list.
From Equations Require Import Equations.

Local Open Scope Z_scope.
Local Open Scope string_scope.
Local Open Scope list_scope.

(** ** The output stream *)

Definition addr := nat.

(** What the program inserts into [std::cout]: string literals and
    [std::string]s, integers ([int], and the [long] of [use_count]),
    characters, and object pointers ([ptr.get()]). *)
Inductive value :=
  | VStr (s : string)
  | VInt (z : Z)
  | VChar (c : ascii)
  | VPtr (p : option addr).

(** One element per [operator<<]: [cout << v] or [cout << endl]. *)
Inductive tok :=
  | Put (v : value)
  | Endl.

Definition newline : ascii := ascii_of_nat 10.

(** The characters an insertion produces.  Integers are printed in decimal;
    the text of a pointer is implementation-defined, here [0x] and the
    address in hexadecimal, [0] for the null pointer. *)
Definition text_of (v : value) : string :=
  match v with
  | VStr s => s
  | VInt z => DecimalString.NilZero.string_of_int (Z.to_int z)
  | VChar c => String c EmptyString
  | VPtr None => "0"
  | VPtr (Some a) =>
      "0x" +:+ HexadecimalString.NilZero.string_of_uint (N.to_hex_uint (N.of_nat a))
  end.

Definition render_tok (t : tok) : string :=
  match t with
  | Put v => text_of v
  | Endl => String newline EmptyString
  end.

Fixpoint render (out : list tok) : string :=
  match out with
  | [] => EmptyString
  | t :: rest => render_tok t +:+ render rest
  end.

Fixpoint count_char (c : ascii) (s : string) : nat :=
  match s with
  | EmptyString => 0%nat
  | String d rest => ((if Ascii.eqb c d then 1 else 0) + count_char c rest)%nat
  end.

(** The number of lines of a text: one per line terminator. *)
Definition line_count (s : string) : nat := count_char newline s.

(** ** Classes *)

(** The two classes every demonstration declares: [struct A] and
    [struct B : A]. *)
Module Cls.
Inductive t := A | B.

Definition same (c d : t) : bool :=
  match c, d with
  | A, A => true
  | B, B => true
  | _, _ => false
  end.

(** The class and its bases, most-base first: the order in which the
    constructors of a complete object run. *)
Definition lineage (c : t) : list t :=
  match c with
  | A => [A]
  | B => [A; B]
  end.

(** [derives_from c T]: a [c] object is a [T] ([dynamic_cast<T*>] of a
    pointer to it succeeds). *)
Definition derives_from (c T : t) : bool :=
  match c, T with
  | A, A => true
  | A, B => false
  | B, A => true
  | B, B => true
  end.
End Cls.

(** ** The abstract machine *)

(** A control block of [shared_ptr]: the number of owners and the type the
    object was made as (the deleter destroys it as that type). *)
Record ctrl_block := CtrlBlock { uses : nat; made_as : Cls.t }.

(** The two smart pointers are handles: the address they hold, or none.  The
    pointee type [T] of [unique_ptr<T>] / [shared_ptr<T>] is kept as an
    index, since it selects the destructor [delete] calls. *)
Record unique_ptr (T : Cls.t) := UniquePtr { up_get : option addr }.
Record shared_ptr (T : Cls.t) := SharedPtr { sp_get : option addr }.
Arguments up_get {T} _.
Arguments sp_get {T} _.

Section Machine.
(** [F]: the data members of the objects ([unit] in
    [unique_pointer_example], the [string member] in
    [shared_pointer_example]). *)
Context {F : Type}.

Record state := State {
  cout : list tok;                  (* insertions so far, oldest first *)
  objs : gmap addr (Cls.t * F);     (* live objects: dynamic type and members *)
  ctrl : gmap addr ctrl_block;      (* control blocks, by object address *)
  next : addr;                      (* next address the allocator hands out *)
  ub : bool                         (* undefined behaviour has been executed *)
}.

(** Computations: [None] is a crash (a null or dangling pointer is
    dereferenced). *)
Definition M (X : Type) : Type := state -> option (X * state).

Definition ret {X} (x : X) : M X := fun s => Some (x, s).

Definition bind {X Y} (m : M X) (k : X -> M Y) : M Y :=
  fun s => match m s with
           | Some (x, s') => k x s'
           | None => None
           end.

Definition crash {X} : M X := fun _ => None.

Definition run_all {X} (f : X -> M unit) : list X -> M unit :=
  fix go l := match l with
              | [] => ret tt
              | x :: rest => bind (f x) (fun _ => go rest)
              end.

(** The same, last element first. *)
Definition run_all_rev {X} (f : X -> M unit) : list X -> M unit :=
  fix go l := match l with
              | [] => ret tt
              | x :: rest => bind (go rest) (fun _ => f x)
              end.

(** [cout << v] and [cout << endl] *)
Definition put (v : value) : M unit :=
  fun s => Some (tt, State (cout s ++ [Put v]) (objs s) (ctrl s) (next s) (ub s)).

Definition endl : M unit :=
  fun s => Some (tt, State (cout s ++ [Endl]) (objs s) (ctrl s) (next s) (ub s)).

Definition print (text : string) : M unit := put (VStr text).

Definition mark_ub : M unit :=
  fun s => Some (tt, State (cout s) (objs s) (ctrl s) (next s) true).

(** Storage *)
Definition alloc (c : Cls.t) (init : F) : M addr :=
  fun s => Some (next s,
                 State (cout s) (<[next s := (c, init)]> (objs s)) (ctrl s)
                       (S (next s)) (ub s)).

Definition free (this : addr) : M unit :=
  fun s => Some (tt, State (cout s) (delete this (objs s)) (ctrl s) (next s) (ub s)).

Definition object_at (this : addr) : M (Cls.t * F) :=
  fun s => match objs s !! this with
           | Some o => Some (o, s)
           | None => None
           end.

Definition dynamic_type (this : addr) : M Cls.t :=
  bind (object_at this) (fun o => ret (fst o)).

Definition get_members (this : addr) : M F :=
  bind (object_at this) (fun o => ret (snd o)).

Definition set_members (this : addr) (f : F) : M unit :=
  bind (object_at this) (fun o => fun s =>
    Some (tt, State (cout s) (<[this := (fst o, f)]> (objs s)) (ctrl s) (next s) (ub s))).

(** A class table: what the member functions of each class do. *)
Record class_table := ClassTable {
  members_init : F;                          (* default-initialised members *)
  ctor_body : Cls.t -> addr -> M unit;       (* the body of [C()] *)
  dtor_body : Cls.t -> addr -> M unit;       (* the body of [~C()] *)
  dtor_virtual : bool;                       (* is [~A()] declared virtual? *)
  to_string_body : Cls.t -> addr -> M unit   (* [C::to_string], a virtual function *)
}.

Variable tbl : class_table.

(** Construction of a complete [T]: the constructor bodies of its bases
    run first, most-base first. *)
Definition construct (T : Cls.t) (this : addr) : M unit :=
  run_all (fun c => ctor_body tbl c this) (Cls.lineage T).

(** The destructor [T::~T()]: its body, then the destructors of its
    bases, in the reverse of the construction order. *)
Definition destroy_as (T : Cls.t) (this : addr) : M unit :=
  run_all_rev (fun c => dtor_body tbl c this) (Cls.lineage T).

(** [new T()] *)
Definition new_object (T : Cls.t) : M addr :=
  bind (alloc T (members_init tbl)) (fun this =>
  bind (construct T this) (fun _ =>
  ret this)).

(** [delete p] with [p] of static type [T*].  A virtual destructor is
    dispatched on the dynamic type.  A non-virtual one is bound statically
    to [T::~T]; when the object is not a [T] that is undefined behaviour
    ([expr.delete]), and what compilers do is run [T::~T] alone. *)
Definition delete_expr (T : Cls.t) (this : addr) : M unit :=
  bind (dynamic_type this) (fun c =>
  if dtor_virtual tbl then
    bind (destroy_as c this) (fun _ => free this)
  else
    bind (if Cls.same T c then ret tt else mark_ub) (fun _ =>
    bind (destroy_as T this) (fun _ =>
    free this))).

(** [p->to_string()]: a virtual call, dispatched on the dynamic type. *)
Definition virtual_to_string (this : addr) : M unit :=
  bind (dynamic_type this) (fun c => to_string_body tbl c this).

(** *** [std::unique_ptr<T>] *)

Definition make_unique (T : Cls.t) : M (unique_ptr T) :=
  bind (new_object T) (fun this => ret (UniquePtr T (Some this))).

(** [unique_ptr<T>(unique_ptr<U>&&)], the converting move constructor
    (the compiler checks that [U*] converts to [T*]). *)
Definition unique_convert (T : Cls.t) {U} (p : unique_ptr U) : unique_ptr T :=
  UniquePtr T (up_get p).

(** [operator->] *)
Definition up_arrow {T} (p : unique_ptr T) : M addr :=
  match up_get p with
  | Some this => ret this
  | None => crash
  end.

(** [~unique_ptr<T>()]: [default_delete<T>] on the owned pointer, if any. *)
Definition unique_dtor {T} (p : unique_ptr T) : M unit :=
  match up_get p with
  | Some this => delete_expr T this
  | None => ret tt
  end.

(** [p = nullptr]: the owned object is deleted, [p] is left empty. *)
Definition unique_reset {T} (p : unique_ptr T) : M (unique_ptr T) :=
  bind (unique_dtor p) (fun _ => ret (UniquePtr T None)).

(** *** [std::shared_ptr<T>] *)

Definition set_ctrl (this : addr) (cb : ctrl_block) : M unit :=
  fun s => Some (tt, State (cout s) (objs s) (<[this := cb]> (ctrl s)) (next s) (ub s)).

Definition drop_ctrl (this : addr) : M unit :=
  fun s => Some (tt, State (cout s) (objs s) (delete this (ctrl s)) (next s) (ub s)).

Definition ctrl_at (this : addr) : M ctrl_block :=
  fun s => match ctrl s !! this with
           | Some cb => Some (cb, s)
           | None => None
           end.

Definition make_shared (T : Cls.t) : M (shared_ptr T) :=
  bind (new_object T) (fun this =>
  bind (set_ctrl this (CtrlBlock 1 T)) (fun _ =>
  ret (SharedPtr T (Some this)))).

(** One more owner of whatever [p] owns. *)
Definition add_owner (p : option addr) : M unit :=
  match p with
  | Some this =>
      bind (ctrl_at this) (fun cb => set_ctrl this (CtrlBlock (S (uses cb)) (made_as cb)))
  | None => ret tt
  end.

(** One owner fewer; the last one destroys the object, as the type it was
    made as, and frees it together with the control block. *)
Definition drop_owner (p : option addr) : M unit :=
  match p with
  | Some this =>
      bind (ctrl_at this) (fun cb =>
      match uses cb with
      | S (S n) => set_ctrl this (CtrlBlock (S n) (made_as cb))
      | _ =>
          bind (destroy_as (made_as cb) this) (fun _ =>
          bind (free this) (fun _ =>
          drop_ctrl this))
      end)
  | None => ret tt
  end.

(** The copy constructor *)
Definition shared_copy {T} (p : shared_ptr T) : M (shared_ptr T) :=
  bind (add_owner (sp_get p)) (fun _ => ret (SharedPtr T (sp_get p))).

(** [~shared_ptr<T>()] *)
Definition shared_dtor {T} (p : shared_ptr T) : M unit := drop_owner (sp_get p).

(** [p = nullptr] *)
Definition shared_reset {T} (p : shared_ptr T) : M (shared_ptr T) :=
  bind (shared_dtor p) (fun _ => ret (SharedPtr T None)).

(** [p = std::move(q)] with [q] a temporary: [p] gives up what it owned
    and takes over what [q] owns. *)
Definition shared_move_assign {T} (p q : shared_ptr T) : M (shared_ptr T) :=
  bind (shared_dtor p) (fun _ => ret q).

(** [p.use_count()] *)
Definition use_count {T} (p : shared_ptr T) (s : state) : nat :=
  match sp_get p with
  | Some this => match ctrl s !! this with
                 | Some cb => uses cb
                 | None => 0
                 end
  | None => 0
  end.

Definition get_use_count {T} (p : shared_ptr T) : M nat :=
  fun s => Some (use_count p s, s).

(** [operator->] *)
Definition sp_arrow {T} (p : shared_ptr T) : M addr :=
  match sp_get p with
  | Some this => ret this
  | None => crash
  end.

(** [static_pointer_cast<T>(p)]: a new owner of the same object, typed
    [T] (the compiler checks that the conversion is well-formed). *)
Definition static_pointer_cast (T : Cls.t) {U} (p : shared_ptr U) : M (shared_ptr T) :=
  bind (add_owner (sp_get p)) (fun _ => ret (SharedPtr T (sp_get p))).

(** [dynamic_pointer_cast<T>(p)]: [dynamic_cast<T*>(p.get())]; a new owner
    of the same object when that is not null, an empty [shared_ptr]
    otherwise. *)
Definition dynamic_pointer_cast (T : Cls.t) {U} (p : shared_ptr U) : M (shared_ptr T) :=
  match sp_get p with
  | Some this =>
      bind (dynamic_type this) (fun c =>
      if Cls.derives_from c T then
        bind (add_owner (Some this)) (fun _ => ret (SharedPtr T (Some this)))
      else ret (SharedPtr T None))
  | None => ret (SharedPtr T None)
  end.
End Machine.

Arguments state F : clear implicits.
Arguments M F X : clear implicits.
Arguments class_table F : clear implicits.

(** [M F] with stdpp's monad notations: [x ← m; k] and [m;; k]. *)
#[global] Instance M_ret {F} : MRet (M F) := @ret F.
#[global] Instance M_bind {F} : MBind (M F) := fun X Y k m => bind m k.

(** The state in which a program starts. *)
Definition initial {F} : state F := State [] ∅ ∅ 0%nat false.

(** ** [modify_vector] *)

Section Rand.
(** [std::rand] is the C library's: a hidden generator state, and a call
    that returns the next number and advances the state. *)
Variable generator : Type.
Variable rand : generator -> Z * generator.

(** The range-based [for] visits the elements in order; each is assigned
    [rand() % 10], whatever it held.  The elements are [int]s, as in the
    one instantiation of the template ([vector<int> workHorse]), and [%] on
    [int] truncates towards zero ([Z.rem]). *)
Fixpoint modify_vector (v : list Z) (g : generator) : list Z * generator :=
  match v with
  | [] => ([], g)
  | _ :: rest =>
      let (r, g1) := rand g in
      let x := Z.rem r 10 in
      let (rest', g2) := modify_vector rest g1 in
      (x :: rest', g2)
  end.
End Rand.

(** The generator the C standard gives as an example ([RAND_MAX] 32767),
    used to run [modify_vector] on concrete vectors. *)
Definition sample_rand (g : Z) : Z * Z :=
  let g' := (g * 1103515245 + 12345) mod 4294967296 in
  ((g' / 65536) mod 32768, g').

(** ** [output_values] *)

(** The two overloads: the one without parameters ends the recursion of
    the variadic one, which prints its first argument and passes on the
    rest.  An argument list is a list of printable values. *)
Fixpoint output_values {F} (args : list value) : M F unit :=
  match args with
  | [] =>
      print "This is the final function call.. I am an empty function";; endl
  | stuff_to_print :: finalValue =>
      put stuff_to_print;; endl;;
      output_values finalValue
  end.

(** What a computation that starts with an empty stream leaves in it. *)
Definition output_of (m : M unit unit) : list tok :=
  match m initial with
  | Some (_, s) => cout s
  | None => []
  end.

(** The printed text of an argument has no line terminator in it. *)
Definition no_line_break (v : value) : Prop := count_char newline (text_of v) = 0%nat.

(** ** [unique_pointer_example] *)

Module UniqueExample.
(** The local [struct A] and [struct B : A] have no data members. *)
Definition classes (virtual_dtor : bool) : class_table unit := {|
  members_init := tt;
  ctor_body c _ :=
    match c with
    | Cls.A => print "A Created";; endl
    | Cls.B => print "B:A Created";; endl
    end;
  dtor_body c _ :=
    match c with
    | Cls.A => print "A Destroyed";; endl
    | Cls.B => print "B:A Destoyed";; endl
    end;
  dtor_virtual := virtual_dtor;
  to_string_body c _ :=
    match c with
    | Cls.A => print "I am an A";; endl
    | Cls.B => print "I am a B";; endl
    end
|}.

(** [~A()] is not declared [virtual] in the source. *)
Definition tbl : class_table unit := classes false.

(** lines 111-115 *)
Definition create_both : M unit (unique_ptr Cls.A * unique_ptr Cls.B) :=
  ptrA ← make_unique tbl Cls.A;
  (this ← up_arrow ptrA; virtual_to_string tbl this);;
  ptrB ← make_unique tbl Cls.B;
  (this ← up_arrow ptrB; virtual_to_string tbl this);;
  mret (ptrA, ptrB).

(** line 117 *)
Definition release_ptrA (ptrA : unique_ptr Cls.A) : M unit (unique_ptr Cls.A) :=
  unique_reset tbl ptrA.

(** line 118 *)
Definition release_ptrB (ptrB : unique_ptr Cls.B) : M unit (unique_ptr Cls.B) :=
  unique_reset tbl ptrB.

(** lines 120-122 *)
Definition polymorphism : M unit (unique_ptr Cls.A) :=
  endl;; print "Run-time polymorphism and dynamic dispatch: ";; endl;;
  made ← make_unique tbl Cls.B;
  let ptrC : unique_ptr Cls.A := unique_convert Cls.A made in
  (this ← up_arrow ptrC; virtual_to_string tbl this);;
  mret ptrC.

(** line 123: the locals go out of scope, last declared first. *)
Definition scope_exit (ptrA : unique_ptr Cls.A) (ptrB : unique_ptr Cls.B)
    (ptrC : unique_ptr Cls.A) : M unit unit :=
  unique_dtor tbl ptrC;;
  unique_dtor tbl ptrB;;
  unique_dtor tbl ptrA.

Definition unique_pointer_example : M unit unit :=
  '(ptrA, ptrB) ← create_both;
  ptrA ← release_ptrA ptrA;
  ptrB ← release_ptrB ptrB;
  ptrC ← polymorphism;
  scope_exit ptrA ptrB ptrC.
End UniqueExample.

(** ** [shared_pointer_example] *)

Module SharedExample.
(** Here [struct A] has one data member, [string member], which [B]
    inherits; each constructor assigns it after its announcement. *)
Definition classes (virtual_dtor : bool) : class_table string := {|
  members_init := "";
  ctor_body c this :=
    match c with
    | Cls.A => print "A Created";; endl;; set_members this "A"
    | Cls.B => print "B:A Created";; endl;; set_members this "B"
    end;
  dtor_body c _ :=
    match c with
    | Cls.A => print "A Destroyed";; endl
    | Cls.B => print "B:A Destoyed";; endl
    end;
  dtor_virtual := virtual_dtor;
  to_string_body c _ :=
    match c with
    | Cls.A => print "I am an A";; endl
    | Cls.B => print "I am a B";; endl
    end
|}.

(** [~A()] is not declared [virtual] in the source. *)
Definition tbl : class_table string := classes false.

(** [ptr->member] *)
Definition member {T} (p : shared_ptr T) : M string string :=
  this ← sp_arrow p; get_members this.

(** [ptr->to_string()] *)
Definition to_string {T} (p : shared_ptr T) : M string unit :=
  this ← sp_arrow p; virtual_to_string tbl this.

(** lines 148-149 *)
Definition two_owners : M string (shared_ptr Cls.A * shared_ptr Cls.A) :=
  ptrA ← make_shared tbl Cls.A;
  ptrB ← shared_copy ptrA;
  mret (ptrA, ptrB).

(** lines 151-158 *)
Definition report_owners (ptrA ptrB : shared_ptr Cls.A) : M string unit :=
  print "ptrA points to ";; put (VPtr (sp_get ptrA));; endl;;
  print "ptrB points to ";; put (VPtr (sp_get ptrB));; endl;;
  endl;;
  print "ptrA member: ";; (m ← member ptrA; put (VStr m));; endl;;
  print "ptrB member: ";; (m ← member ptrB; put (VStr m));; endl;;
  endl;; print "ptrA usecount is: ";;
  (n ← get_use_count ptrA; put (VInt (Z.of_nat n)));; endl.

(** line 160 *)
Definition release_ptrA (ptrA : shared_ptr Cls.A) : M string (shared_ptr Cls.A) :=
  shared_reset tbl ptrA.

(** line 161 *)
Definition release_ptrB (ptrB : shared_ptr Cls.A) : M string (shared_ptr Cls.A) :=
  shared_reset tbl ptrB.

(** lines 165-169 *)
Definition base_and_derived : M string (shared_ptr Cls.A * shared_ptr Cls.B) :=
  endl;; print ("---- Pointer casting: " +:+ String newline "");;
  basePtr ← make_shared tbl Cls.A;
  derivedPtr ← make_shared tbl Cls.B;
  endl;; print "basePtr: ";; to_string basePtr;;
  mret (basePtr, derivedPtr).

(** lines 170-172 *)
Definition go_up (basePtr : shared_ptr Cls.A) (derivedPtr : shared_ptr Cls.B)
    : M string (shared_ptr Cls.A) :=
  basePtr ← (cast ← static_pointer_cast Cls.A derivedPtr;
             shared_move_assign tbl basePtr cast);
  endl;; print "basePtr went up class hierarchy! ";;
  endl;; print "basePtr: ";; to_string basePtr;;
  mret basePtr.

(** lines 175-176 *)
Definition go_down (basePtr : shared_ptr Cls.A) : M string (shared_ptr Cls.B) :=
  downCastPtr ← dynamic_pointer_cast Cls.B basePtr;
  endl;; print "downCastPtr: ";; to_string downCastPtr;;
  mret downCastPtr.

(** line 178 *)
Definition final_report (derivedPtr : shared_ptr Cls.B) : M string unit :=
  endl;; print "How many pointers point to the Derived class (B)? ";;
  (n ← get_use_count derivedPtr; put (VInt (Z.of_nat n)));; endl.

(** line 180: the locals go out of scope, last declared first. *)
Definition scope_exit (ptrA ptrB basePtr : shared_ptr Cls.A)
    (derivedPtr downCastPtr : shared_ptr Cls.B) : M string unit :=
  shared_dtor tbl downCastPtr;;
  shared_dtor tbl derivedPtr;;
  shared_dtor tbl basePtr;;
  shared_dtor tbl ptrB;;
  shared_dtor tbl ptrA.

Definition shared_pointer_example : M string unit :=
  '(ptrA, ptrB) ← two_owners;
  report_owners ptrA ptrB;;
  ptrA ← release_ptrA ptrA;
  ptrB ← release_ptrB ptrB;
  '(basePtr, derivedPtr) ← base_and_derived;
  basePtr ← go_up basePtr derivedPtr;
  downCastPtr ← go_down basePtr;
  final_report derivedPtr;;
  scope_exit ptrA ptrB basePtr derivedPtr downCastPtr.

(** *** Vocabulary of the statements below *)

(** A base-typed owner is usable for a downward conversion when it is
    empty or owns a live object with its control block. *)
Definition owner_ok (s : state string) (p : shared_ptr Cls.A) : Prop :=
  match sp_get p with
  | Some this => is_Some (objs s !! this) /\ is_Some (ctrl s !! this)
  | None => True
  end.

(** The dynamic type of what [p] owns, if anything. *)
Definition pointee_type (s : state string) (p : shared_ptr Cls.A) : option Cls.t :=
  match sp_get p with
  | Some this => fst <$> objs s !! this
  | None => None
  end.
End SharedExample.



(** ** [fill_vector] *)

(** The loop [for (int i = 0; i < vecSize; ++i) v.push_back(i)], from the
    counter value [i] on.  It ends because [vecSize - i] shrinks. *)
Equations? fill_from (i vecSize : Z) (v : list Z) : list Z
  by wf (Z.to_nat (vecSize - i)) lt :=
  fill_from i vecSize v with Z_lt_dec i vecSize := {
    | left _ => fill_from (i + 1) vecSize (v ++ [i]);
    | right _ => v }.
Proof. lia. Qed.

Definition fill_vector (v : list Z) (vecSize : Z) : list Z := fill_from 0 vecSize v.

(** ** [find_if_example] *)

(** The lambda [[](const VEC_TYPE& n) { return (n % 2) == 0; }], on [int]. *)
Definition is_even (n : Z) : bool := (Z.rem n 2 =? 0)%Z.

(** [std::find_if(v.begin(), v.end(), pred)], with iterators as positions:
    the first position whose element satisfies [pred], and the end position
    (the length) when there is none. *)
Fixpoint find_if {X} (pred : X -> bool) (v : list X) : nat :=
  match v with
  | [] => 0%nat
  | x :: rest => if pred x then 0%nat else S (find_if pred rest)
  end.

(** [*it]: reading at or past the end is undefined, here a crash. *)
Definition deref {F} (v : list Z) (it : nat) : M F Z :=
  match v !! it with
  | Some x => ret x
  | None => crash
  end.

Definition find_if_example {F} (v : list Z) : M F unit :=
  let ptr := find_if is_even v in
  if negb (ptr =? length v)%nat then
    print "First even number found was: ";; (x ← deref v ptr; put (VInt x));; endl
  else
    print "Container did not contain any even numbers";; endl.

(** ** [main] *)

(** [for (auto x : workHorse) cout << x << " ";] *)
Definition show_vector {F} (v : list Z) : M F unit :=
  run_all (fun x => put (VInt x);; print " ") v.

(** [main] runs the two pointer demonstrations one after the other on one
    store.  Their classes are local to them and differ in their members
    (none, and the [string member]), so an object of that store carries the
    members of the one kind or of the other. *)
Definition main_members : Type := (unit + string)%type.

Definition of_unique (f : main_members) : option unit :=
  match f with
  | inl u => Some u
  | inr _ => None
  end.

Definition of_shared (f : main_members) : option string :=
  match f with
  | inl _ => None
  | inr m => Some m
  end.

(** A call, from [main], of a function whose local classes have the members
    [F].  The function works on the objects of its own classes; every other
    object of the store is out of its reach and is still there, untouched,
    when it returns, next to whatever the function left behind.  The
    stream, the control blocks, the allocator and the flag are common. *)
Definition call_local {F X} (proj : main_members -> option F) (inj : F -> main_members)
    (m : M F X) : M main_members X :=
  fun s =>
    let mine :=
      omap (fun o => match proj (snd o) with
                     | Some f => Some (fst o, f)
                     | None => None
                     end) (objs s) in
    let others :=
      omap (fun o => match proj (snd o) with
                     | Some _ => None
                     | None => Some o
                     end) (objs s) in
    match m (State (cout s) mine (ctrl s) (next s) (ub s)) with
    | Some (x, s') =>
        Some (x, State (cout s')
                       (((fun o => (fst o, inj (snd o))) <$> objs s') ∪ others)
                       (ctrl s') (next s') (ub s'))
    | None => None
    end.

Section Main.
Variable generator : Type.
Variable rand : generator -> Z * generator.

(** [main], with the generator state [g] at its start; it returns the
    generator state at its end. *)
Definition main (g : generator) : M main_members generator :=
  let workHorse := fill_vector [] 20 in
  let (workHorse, g) := modify_vector generator rand workHorse g in
  print "What is in the vector? ";; endl;;
  show_vector workHorse;;
  endl;;
  find_if_example workHorse;;
  endl;;
  print "We'll ask the variadic function to access the values from index 0, ascending";;
  endl;;
  let arbiraryValue := 0%nat in
  a0 ← deref workHorse arbiraryValue;
  a1 ← deref workHorse (arbiraryValue + 1);
  a2 ← deref workHorse (arbiraryValue + 2);
  a3 ← deref workHorse (arbiraryValue + 3);
  a4 ← deref workHorse (arbiraryValue + 4);
  output_values [VInt a0; VInt a1; VInt a2; VInt a3; VInt a4];;
  endl;; print "---- Unique pointers: ";; endl;;
  call_local of_unique inl UniqueExample.unique_pointer_example;;
  endl;; print "---- Shared pointers: ";; endl;;
  call_local of_shared inr SharedExample.shared_pointer_example;;
  mret g.
End Main.

(** ** Vocabulary of the further properties *)

Section Draws.
Variable generator : Type.
Variable rand : generator -> Z * generator.

(** The results of [n] successive calls of [rand()], and the generator
    state after them. *)
Fixpoint draws (n : nat) (g : generator) : list Z * generator :=
  match n with
  | O => ([], g)
  | S n' =>
      let (r, g1) := rand g in
      let (rs, g2) := draws n' g1 in
      (r :: rs, g2)
  end.
End Draws.

(** The allocator has not handed out [next s] or anything above it: no
    object and no control block lives there. *)
Definition fresh_above {F} (s : state F) : Prop :=
  forall a, (next s <= a)%nat -> objs s !! a = None /\ ctrl s !! a = None.

(** The line [find_if_example] prints for [v]. *)
Definition find_line (v : list Z) : list tok :=
  match List.find is_even v with
  | Some x => [Put (VStr "First even number found was: "); Put (VInt x); Endl]
  | None => [Put (VStr "Container did not contain any even numbers"); Endl]
  end.

(** What [unique_pointer_example] prints. *)
Definition unique_output : list tok :=
  [Put (VStr "A Created"); Endl;
   Put (VStr "I am an A"); Endl;
   Put (VStr "A Created"); Endl; Put (VStr "B:A Created"); Endl;
   Put (VStr "I am a B"); Endl;
   Put (VStr "A Destroyed"); Endl;
   Put (VStr "B:A Destoyed"); Endl; Put (VStr "A Destroyed"); Endl;
   Endl; Put (VStr "Run-time polymorphism and dynamic dispatch: "); Endl;
   Put (VStr "A Created"); Endl; Put (VStr "B:A Created"); Endl;
   Put (VStr "I am a B"); Endl;
   Put (VStr "A Destroyed"); Endl].

(** What [shared_pointer_example] prints when its first object is placed
    at the address [a]. *)
Definition shared_output (a : addr) : list tok :=
  [Put (VStr "A Created"); Endl;
   Put (VStr "ptrA points to "); Put (VPtr (Some a)); Endl;
   Put (VStr "ptrB points to "); Put (VPtr (Some a)); Endl;
   Endl;
   Put (VStr "ptrA member: "); Put (VStr "A"); Endl;
   Put (VStr "ptrB member: "); Put (VStr "A"); Endl;
   Endl; Put (VStr "ptrA usecount is: "); Put (VInt 2); Endl;
   Put (VStr "A Destroyed"); Endl;
   Endl; Put (VStr ("---- Pointer casting: " +:+ String newline ""));
   Put (VStr "A Created"); Endl;
   Put (VStr "A Created"); Endl; Put (VStr "B:A Created"); Endl;
   Endl; Put (VStr "basePtr: "); Put (VStr "I am an A"); Endl;
   Put (VStr "A Destroyed"); Endl;
   Endl; Put (VStr "basePtr went up class hierarchy! ");
   Endl; Put (VStr "basePtr: "); Put (VStr "I am a B"); Endl;
   Endl; Put (VStr "downCastPtr: "); Put (VStr "I am a B"); Endl;
   Endl; Put (VStr "How many pointers point to the Derived class (B)? ");
   Put (VInt 3); Endl;
   Put (VStr "B:A Destoyed"); Endl; Put (VStr "A Destroyed"); Endl].

(** * Properties *)

(** ** Symbolic execution *)

Ltac machine_step :=
  cbv beta iota zeta delta
    [bind ret crash run_all run_all_rev put endl print mark_ub alloc free
     object_at dynamic_type get_members set_members construct destroy_as
     new_object delete_expr virtual_to_string make_unique unique_convert
     up_arrow unique_dtor unique_reset set_ctrl drop_ctrl ctrl_at make_shared
     add_owner drop_owner shared_copy shared_dtor shared_reset
     shared_move_assign get_use_count sp_arrow static_pointer_cast
     dynamic_pointer_cast use_count mbind mret M_bind M_ret Cls.lineage
     Cls.derives_from Cls.same
     SharedExample.tbl SharedExample.classes SharedExample.member
     SharedExample.to_string UniqueExample.tbl UniqueExample.classes];
  cbn [cout objs ctrl next ub up_get sp_get uses made_as fst snd
       members_init ctor_body dtor_body dtor_virtual to_string_body].

Ltac machine_lookup :=
  first
    [ rewrite lookup_insert_eq
    | rewrite lookup_delete_eq
    | rewrite lookup_insert_ne by lia
    | rewrite lookup_delete_ne by lia ].

Ltac exec := repeat (machine_step; try machine_lookup).

(** [(out ++ [a]) ++ [b]] to [out ++ [a; b]] *)
Ltac flatten_cout := rewrite <- ?app_assoc; cbn [app].

Module UniqueFacts.
Import UniqueExample.

Ltac unfold_example :=
  unfold unique_pointer_example, create_both, release_ptrA, release_ptrB,
    polymorphism, scope_exit.

(** What [make_unique<T>()] does, from any state: the object is placed at
    the next free address and the constructors announce themselves,
    [A]'s before [B]'s. *)
Lemma make_unique_A v (s : state unit) :
  make_unique (classes v) Cls.A s =
  Some (UniquePtr Cls.A (Some (next s)),
        State (cout s ++ [Put (VStr "A Created"); Endl])
              (<[next s := (Cls.A, tt)]> (objs s)) (ctrl s) (S (next s)) (ub s)).
Proof. destruct s. exec. flatten_cout. reflexivity. Qed.

Lemma make_unique_B v (s : state unit) :
  make_unique (classes v) Cls.B s =
  Some (UniquePtr Cls.B (Some (next s)),
        State (cout s ++ [Put (VStr "A Created"); Endl;
                          Put (VStr "B:A Created"); Endl])
              (<[next s := (Cls.B, tt)]> (objs s)) (ctrl s) (S (next s)) (ub s)).
Proof. destruct s. exec. flatten_cout. reflexivity. Qed.

(** A [unique_ptr<B>] that owns a [B] destroys it derived-first, and the
    same for a [unique_ptr<A>] that owns an [A]. *)
Lemma unique_dtor_B v (s : state unit) this :
  objs s !! this = Some (Cls.B, tt) ->
  unique_dtor (classes v) (UniquePtr Cls.B (Some this)) s =
  Some (tt, State (cout s ++ [Put (VStr "B:A Destoyed"); Endl;
                              Put (VStr "A Destroyed"); Endl])
                  (delete this (objs s)) (ctrl s) (next s) (ub s)).
Proof.
  destruct s, v; cbn [objs]; intros Hthis; exec; rewrite Hthis; exec;
    flatten_cout; reflexivity.
Qed.

Lemma unique_dtor_A v (s : state unit) this :
  objs s !! this = Some (Cls.A, tt) ->
  unique_dtor (classes v) (UniquePtr Cls.A (Some this)) s =
  Some (tt, State (cout s ++ [Put (VStr "A Destroyed"); Endl])
                  (delete this (objs s)) (ctrl s) (next s) (ub s)).
Proof.
  destruct s, v; cbn [objs]; intros Hthis; exec; rewrite Hthis; exec;
    flatten_cout; reflexivity.
Qed.

(** A [unique_ptr<A>] that owns a [B]: [~A()] is not virtual, so
    [delete] runs [A::~A] alone and the behaviour is undefined. *)
Lemma unique_dtor_A_of_B (s : state unit) this :
  objs s !! this = Some (Cls.B, tt) ->
  unique_dtor tbl (UniquePtr Cls.A (Some this)) s =
  Some (tt, State (cout s ++ [Put (VStr "A Destroyed"); Endl])
                  (delete this (objs s)) (ctrl s) (next s) true).
Proof.
  destruct s; cbn [objs]; intros Hthis; exec; rewrite Hthis; exec;
    flatten_cout; reflexivity.
Qed.

(** Had [~A()] been declared [virtual], the same release would have run
    [B::~B] and then [A::~A]. *)
Lemma unique_dtor_A_of_B_virtual (s : state unit) this :
  objs s !! this = Some (Cls.B, tt) ->
  unique_dtor (classes true) (UniquePtr Cls.A (Some this)) s =
  Some (tt, State (cout s ++ [Put (VStr "B:A Destoyed"); Endl;
                              Put (VStr "A Destroyed"); Endl])
                  (delete this (objs s)) (ctrl s) (next s) (ub s)).
Proof.
  destruct s; cbn [objs]; intros Hthis; exec; rewrite Hthis; exec;
    flatten_cout; reflexivity.
Qed.

(** The whole of [unique_pointer_example], from any state: what it
    prints, and that it ends with no object left. *)
Lemma unique_pointer_example_trace (s : state unit) :
  exists s',
    unique_pointer_example s = Some (tt, s') /\
    cout s' = cout s ++
      [Put (VStr "A Created"); Endl;
       Put (VStr "I am an A"); Endl;
       Put (VStr "A Created"); Endl; Put (VStr "B:A Created"); Endl;
       Put (VStr "I am a B"); Endl;
       Put (VStr "A Destroyed"); Endl;
       Put (VStr "B:A Destoyed"); Endl; Put (VStr "A Destroyed"); Endl;
       Endl; Put (VStr "Run-time polymorphism and dynamic dispatch: "); Endl;
       Put (VStr "A Created"); Endl; Put (VStr "B:A Created"); Endl;
       Put (VStr "I am a B"); Endl;
       Put (VStr "A Destroyed"); Endl] /\
    ub s' = true.
Proof.
  destruct s. unfold_example. exec. eexists. split; [reflexivity|].
  cbn [cout ub]. flatten_cout. split; reflexivity.
Qed.

(** C1 (the code departs from the claim).  Construction is base-first and
    a [unique_ptr<B>] releases derived-first ([make_unique_B],
    [unique_dtor_B]), but where the owner is typed [unique_ptr<A>] and
    owns a [B] (ptrC, lines 121-123), its release at the end of the
    function prints [A Destroyed] alone: the teardown of [B] is not run,
    and the deletion is undefined behaviour since [~A()] is not virtual. *)
Theorem ptrC_release_skips_derived_teardown (s : state unit) :
  exists this s1 s2,
    polymorphism s = Some (UniquePtr Cls.A (Some this), s1) /\
    objs s1 !! this = Some (Cls.B, tt) /\
    scope_exit (UniquePtr Cls.A None) (UniquePtr Cls.B None)
               (UniquePtr Cls.A (Some this)) s1 = Some (tt, s2) /\
    cout s2 = cout s1 ++ [Put (VStr "A Destroyed"); Endl] /\
    objs s2 !! this = None /\
    ub s2 = true.
Proof.
  destruct s as [out os cs n u]. unfold_example. exec.
  do 3 eexists. split; [reflexivity|]. exec.
  split; [reflexivity|]. split; [reflexivity|].
  cbn [cout objs ub]. flatten_cout. rewrite lookup_delete_eq. auto.
Qed.

(** C7 (the code departs from the claim).  With the [A] created first and
    the [B] second, line 117 releases ptrA before line 118 releases ptrB:
    the teardown of the Base entity is printed first, the two teardown
    events of the Derived entity after it. *)
Theorem releases_run_in_creation_order (s : state unit) :
  exists a b s1 s2 s3,
    create_both s = Some ((UniquePtr Cls.A (Some a), UniquePtr Cls.B (Some b)), s1) /\
    objs s1 !! a = Some (Cls.A, tt) /\ objs s1 !! b = Some (Cls.B, tt) /\
    (a < b)%nat /\
    release_ptrA (UniquePtr Cls.A (Some a)) s1 = Some (UniquePtr Cls.A None, s2) /\
    cout s2 = cout s1 ++ [Put (VStr "A Destroyed"); Endl] /\
    release_ptrB (UniquePtr Cls.B (Some b)) s2 = Some (UniquePtr Cls.B None, s3) /\
    cout s3 = cout s2 ++ [Put (VStr "B:A Destoyed"); Endl;
                          Put (VStr "A Destroyed"); Endl].
Proof.
  destruct s as [out os cs n u]. unfold_example. exec.
  do 5 eexists. split; [reflexivity|]. exec.
  split; [reflexivity|]. split; [reflexivity|]. split; [lia|].
  split; [reflexivity|]. split; [cbn [cout]; flatten_cout; reflexivity|].
  exec. split; [reflexivity|]. cbn [cout]. flatten_cout. reflexivity.
Qed.
End UniqueFacts.

Module SharedFacts.
Import SharedExample.

Ltac unfold_example :=
  unfold shared_pointer_example, two_owners, report_owners, release_ptrA,
    release_ptrB, base_and_derived, go_up, go_down, final_report, scope_exit.

(** Reading the owner count never fails and changes nothing. *)
Lemma use_count_observable {F T} (p : shared_ptr T) (s : state F) :
  get_use_count p s = Some (use_count p s, s).
Proof. reflexivity. Qed.

(** Releasing one of several owners only lowers the count. *)
Lemma drop_owner_shared (s : state string) this n T :
  ctrl s !! this = Some (CtrlBlock (S (S n)) T) ->
  drop_owner tbl (Some this) s =
  Some (tt, State (cout s) (objs s) (<[this := CtrlBlock (S n) T]> (ctrl s))
                  (next s) (ub s)).
Proof. destruct s; cbn [ctrl]; intros Hcb; exec; rewrite Hcb; exec; reflexivity. Qed.

(** Releasing the last owner destroys the object as the type it was made
    as ([B::~B] before [A::~A]) and frees it. *)
Lemma drop_owner_last (s : state string) this T :
  ctrl s !! this = Some (CtrlBlock 1 T) ->
  drop_owner tbl (Some this) s =
  Some (tt, State (cout s ++ match T with
                             | Cls.A => [Put (VStr "A Destroyed"); Endl]
                             | Cls.B => [Put (VStr "B:A Destoyed"); Endl;
                                         Put (VStr "A Destroyed"); Endl]
                             end)
                  (delete this (objs s)) (delete this (ctrl s)) (next s) (ub s)).
Proof.
  destruct s, T; cbn [ctrl]; intros Hcb; exec; rewrite Hcb; exec;
    flatten_cout; reflexivity.
Qed.

(** The whole of [shared_pointer_example], from any state. *)
Lemma shared_pointer_example_trace (s : state string) :
  exists s',
    shared_pointer_example s = Some (tt, s') /\
    cout s' = cout s ++
      [Put (VStr "A Created"); Endl;
       Put (VStr "ptrA points to "); Put (VPtr (Some (next s))); Endl;
       Put (VStr "ptrB points to "); Put (VPtr (Some (next s))); Endl;
       Endl;
       Put (VStr "ptrA member: "); Put (VStr "A"); Endl;
       Put (VStr "ptrB member: "); Put (VStr "A"); Endl;
       Endl; Put (VStr "ptrA usecount is: "); Put (VInt 2); Endl;
       Put (VStr "A Destroyed"); Endl;
       Endl; Put (VStr ("---- Pointer casting: " +:+ String newline ""));
       Put (VStr "A Created"); Endl;
       Put (VStr "A Created"); Endl; Put (VStr "B:A Created"); Endl;
       Endl; Put (VStr "basePtr: "); Put (VStr "I am an A"); Endl;
       Put (VStr "A Destroyed"); Endl;
       Endl; Put (VStr "basePtr went up class hierarchy! ");
       Endl; Put (VStr "basePtr: "); Put (VStr "I am a B"); Endl;
       Endl; Put (VStr "downCastPtr: "); Put (VStr "I am a B"); Endl;
       Endl; Put (VStr "How many pointers point to the Derived class (B)? ");
       Put (VInt 3); Endl;
       Put (VStr "B:A Destoyed"); Endl; Put (VStr "A Destroyed"); Endl] /\
    ub s' = ub s.
Proof.
  destruct s. unfold_example. exec. eexists. split; [reflexivity|].
  cbn [cout ub next]. flatten_cout. split; reflexivity.
Qed.

(** C3.  With ptrA and ptrB co-owning the [A] made at line 148, line 160
    (the release of ptrA) prints nothing and leaves the object alive with
    one owner; line 161 (the release of ptrB, the last owner) prints
    [A Destroyed] once and the object is gone. *)
Theorem destroyed_once_after_last_release (s : state string) :
  exists this ptrA ptrB s0 s1 s2 s3,
    two_owners s = Some ((ptrA, ptrB), s0) /\
    sp_get ptrA = Some this /\ sp_get ptrB = Some this /\
    report_owners ptrA ptrB s0 = Some (tt, s1) /\
    release_ptrA ptrA s1 = Some (SharedPtr Cls.A None, s2) /\
    cout s2 = cout s1 /\
    objs s2 !! this = Some (Cls.A, "A") /\
    use_count ptrB s2 = 1%nat /\
    release_ptrB ptrB s2 = Some (SharedPtr Cls.A None, s3) /\
    cout s3 = cout s2 ++ [Put (VStr "A Destroyed"); Endl] /\
    objs s3 !! this = None /\
    use_count ptrB s3 = 0%nat.
Proof.
  destruct s as [out os cs n u]. unfold_example. exec.
  do 7 eexists. split; [reflexivity|]. cbn [sp_get].
  split; [reflexivity|]. split; [reflexivity|]. exec.
  split; [reflexivity|]. exec. split; [reflexivity|].
  split; [reflexivity|]. exec. split; [reflexivity|].
  split; [reflexivity|]. split; [reflexivity|].
  cbn [cout]. flatten_cout. split; [reflexivity|]. exec. auto.
Qed.

(** C5.  ptrA and ptrB hold the same address, read the same [member],
    and lines 151-156 print that address twice and that member twice. *)
Theorem co_owners_same_identity (s : state string) :
  exists ptrA ptrB s1 s2 m,
    two_owners s = Some ((ptrA, ptrB), s1) /\
    sp_get ptrA = sp_get ptrB /\
    sp_get ptrA <> None /\
    member ptrA s1 = Some (m, s1) /\
    member ptrB s1 = Some (m, s1) /\
    report_owners ptrA ptrB s1 = Some (tt, s2) /\
    cout s2 = cout s1 ++
      [Put (VStr "ptrA points to "); Put (VPtr (sp_get ptrA)); Endl;
       Put (VStr "ptrB points to "); Put (VPtr (sp_get ptrA)); Endl;
       Endl;
       Put (VStr "ptrA member: "); Put (VStr m); Endl;
       Put (VStr "ptrB member: "); Put (VStr m); Endl;
       Endl; Put (VStr "ptrA usecount is: "); Put (VInt 2); Endl].
Proof.
  destruct s as [out os cs n u]. unfold_example. exec.
  do 5 eexists. split; [reflexivity|]. cbn [sp_get].
  split; [reflexivity|]. split; [discriminate|]. exec.
  split; [reflexivity|]. split; [reflexivity|]. split; [reflexivity|].
  cbn [cout]. flatten_cout. reflexivity.
Qed.

(** C6.  While ptrA and ptrB are both live the owner count is 2, which is
    what line 158 prints; and [use_count] can be read in any state. *)
Theorem two_live_owners_counted (s : state string) :
  exists ptrA ptrB s1 s2,
    two_owners s = Some ((ptrA, ptrB), s1) /\
    use_count ptrA s1 = 2%nat /\
    use_count ptrB s1 = 2%nat /\
    report_owners ptrA ptrB s1 = Some (tt, s2) /\
    (exists before n,
       cout s2 = cout s1 ++ before ++
                 [Put (VStr "ptrA usecount is: "); Put (VInt (Z.of_nat n)); Endl] /\
       n = use_count ptrA s1 /\ (2 <= n)%nat) /\
    use_count ptrA s2 = 2%nat /\
    (forall T (p : shared_ptr T) (st : state string),
       get_use_count p st = Some (use_count p st, st)).
Proof.
  destruct s as [out os cs n u]. unfold_example. exec.
  do 4 eexists. split; [reflexivity|]. exec.
  split; [reflexivity|]. split; [reflexivity|]. split; [reflexivity|].
  split.
  - exists [Put (VStr "ptrA points to "); Put (VPtr (Some n)); Endl;
            Put (VStr "ptrB points to "); Put (VPtr (Some n)); Endl;
            Endl;
            Put (VStr "ptrA member: "); Put (VStr "A"); Endl;
            Put (VStr "ptrB member: "); Put (VStr "A"); Endl;
            Endl], 2%nat.
    cbn [cout]. flatten_cout. split; [reflexivity|]. split; [reflexivity|lia].
  - split; [exec; reflexivity|]. intros. reflexivity.
Qed.

(** C8.  At line 178 derivedPtr, basePtr (after the upward conversion of
    line 170) and downCastPtr (the downward conversion of line 175) own
    the same [B], and [derivedPtr.use_count()] is 3, which is printed. *)
Theorem three_owners_at_final_report (s : state string) :
  exists basePtr derivedPtr basePtr' downCastPtr s1 s2 s3 s4,
    base_and_derived s = Some ((basePtr, derivedPtr), s1) /\
    go_up basePtr derivedPtr s1 = Some (basePtr', s2) /\
    go_down basePtr' s2 = Some (downCastPtr, s3) /\
    sp_get derivedPtr <> None /\
    sp_get basePtr' = sp_get derivedPtr /\
    sp_get downCastPtr = sp_get derivedPtr /\
    use_count derivedPtr s3 = 3%nat /\
    final_report derivedPtr s3 = Some (tt, s4) /\
    cout s4 = cout s3 ++
      [Endl; Put (VStr "How many pointers point to the Derived class (B)? ");
       Put (VInt 3); Endl].
Proof.
  destruct s as [out os cs n u]. unfold_example. exec.
  do 8 eexists. split; [reflexivity|]. exec.
  split; [reflexivity|]. exec. split; [reflexivity|]. cbn [sp_get].
  split; [discriminate|]. split; [reflexivity|]. split; [reflexivity|].
  exec. split; [reflexivity|]. split; [reflexivity|].
  cbn [cout]. flatten_cout. reflexivity.
Qed.

(** C2.  [dynamic_pointer_cast<B>] of a base-typed owner always returns;
    the result is non-null exactly when the owned object's dynamic type is
    [B], and it is then one more owner of the same object; otherwise it
    is empty and nothing changes.  On the path of the demonstration
    (line 175) basePtr owns a [B] and the conversion succeeds. *)
Theorem downcast_checked (s : state string) (p : shared_ptr Cls.A)
    (Hp : owner_ok s p) :
  (exists q s',
     dynamic_pointer_cast Cls.B p s = Some (q, s') /\
     (sp_get q <> None <-> pointee_type s p = Some Cls.B) /\
     (sp_get q <> None ->
        sp_get q = sp_get p /\ use_count q s' = S (use_count p s) /\
        cout s' = cout s /\ objs s' = objs s) /\
     (sp_get q = None -> s' = s)) /\
  (forall s0 : state string,
     exists basePtr derivedPtr basePtr' this s1 s2 s3,
       base_and_derived s0 = Some ((basePtr, derivedPtr), s1) /\
       go_up basePtr derivedPtr s1 = Some (basePtr', s2) /\
       pointee_type s2 basePtr' = Some Cls.B /\
       dynamic_pointer_cast Cls.B basePtr' s2 = Some (SharedPtr Cls.B (Some this), s3) /\
       sp_get basePtr' = Some this).
Proof.
  split.
  - destruct s as [out os cs n u], p as [[this|]]; unfold owner_ok, pointee_type in *;
      cbn [sp_get objs ctrl] in *.
    + destruct Hp as [[[c f] Hobj] [[k T] Hcb]].
      exec. rewrite Hobj. exec. rewrite Hcb.
      cbn [fmap option_fmap option_map fst]. destruct c; exec.
      * do 2 eexists. split; [reflexivity|]. cbn [sp_get].
        split; [split; congruence|]. split; [congruence|reflexivity].
      * rewrite Hcb. exec. do 2 eexists. split; [reflexivity|]. cbn [sp_get].
        split; [split; congruence|]. split; [|congruence].
        intros _. exec. auto.
    + exec. do 2 eexists. split; [reflexivity|]. cbn [sp_get].
      split; [split; congruence|]. split; [congruence|reflexivity].
  - intros [out os cs n u]. unfold_example. exec.
    do 7 eexists. split; [reflexivity|]. exec. split; [reflexivity|].
    unfold pointee_type. cbn [sp_get objs]. exec.
    split; [reflexivity|]. split; reflexivity.
Qed.

Lemma downcast_checked_witness :
  let s := State [] {[ 0%nat := (Cls.B, "B") ]} {[ 0%nat := CtrlBlock 2 Cls.B ]} 1%nat false in
  let p := SharedPtr Cls.A (Some 0%nat) in
  owner_ok s p /\
  exists q s',
    dynamic_pointer_cast Cls.B p s = Some (q, s') /\
    (sp_get q <> None <-> pointee_type s p = Some Cls.B) /\
    (sp_get q <> None ->
       sp_get q = sp_get p /\ use_count q s' = S (use_count p s) /\
       cout s' = cout s /\ objs s' = objs s) /\
    (sp_get q = None -> s' = s).
Proof.
  intros s p.
  assert (Hp : owner_ok s p) by (split; vm_compute; eauto).
  split; [exact Hp|]. exact (proj1 (downcast_checked s p Hp)).
Defined.
End SharedFacts.

Module DispatchFacts.
(** [p->to_string()] on an object whose dynamic type is [B] runs
    [B::to_string], whatever the type of the pointer. *)
Lemma virtual_to_string_B {F} (tbl : class_table F) (s : state F) this f :
  objs s !! this = Some (Cls.B, f) ->
  virtual_to_string tbl this s = to_string_body tbl Cls.B this s.
Proof. intros Hthis. unfold virtual_to_string, dynamic_type, object_at, bind, ret.
       rewrite Hthis. reflexivity. Qed.

(** C4.  ptrC is a [unique_ptr<A>] that owns the [B] made at line 121, and
    [ptrC->to_string()] prints [I am a B]; basePtr is a [shared_ptr<A>]
    that, after line 170, owns the [B] of derivedPtr, and
    [basePtr->to_string()] at line 172 prints [I am a B]. *)
Theorem base_typed_owner_runs_override :
  (forall s : state unit,
     exists (ptrC : unique_ptr Cls.A) this s1,
       UniqueExample.polymorphism s = Some (ptrC, s1) /\
       up_get ptrC = Some this /\
       objs s1 !! this = Some (Cls.B, tt) /\
       cout s1 = cout s ++
         [Endl; Put (VStr "Run-time polymorphism and dynamic dispatch: "); Endl;
          Put (VStr "A Created"); Endl; Put (VStr "B:A Created"); Endl;
          Put (VStr "I am a B"); Endl] /\
       exists s1',
         (this ← up_arrow ptrC; virtual_to_string UniqueExample.tbl this) s1
           = Some (tt, s1') /\
         cout s1' = cout s1 ++ [Put (VStr "I am a B"); Endl]) /\
  (forall s : state string,
     exists (basePtr basePtr' : shared_ptr Cls.A) (derivedPtr : shared_ptr Cls.B)
            this s1 s2,
       SharedExample.base_and_derived s = Some ((basePtr, derivedPtr), s1) /\
       SharedExample.go_up basePtr derivedPtr s1 = Some (basePtr', s2) /\
       sp_get basePtr' = Some this /\
       sp_get derivedPtr = Some this /\
       objs s2 !! this = Some (Cls.B, "B") /\
       cout s2 = cout s1 ++
         [Put (VStr "A Destroyed"); Endl;
          Endl; Put (VStr "basePtr went up class hierarchy! ");
          Endl; Put (VStr "basePtr: "); Put (VStr "I am a B"); Endl] /\
       exists s2',
         SharedExample.to_string basePtr' s2 = Some (tt, s2') /\
         cout s2' = cout s2 ++ [Put (VStr "I am a B"); Endl]).
Proof.
  split.
  - intros [out os cs n u]. UniqueFacts.unfold_example. exec.
    do 3 eexists. split; [reflexivity|]. cbn [up_get].
    split; [reflexivity|]. exec. split; [reflexivity|].
    split; [cbn [cout]; flatten_cout; reflexivity|].
    eexists. split; [reflexivity|]. cbn [cout]. flatten_cout. reflexivity.
  - intros [out os cs n u]. SharedFacts.unfold_example. exec.
    do 6 eexists. split; [reflexivity|]. exec. split; [reflexivity|].
    cbn [sp_get]. split; [reflexivity|]. split; [reflexivity|]. exec.
    split; [reflexivity|].
    split; [cbn [cout]; flatten_cout; reflexivity|].
    eexists. split; [reflexivity|]. cbn [cout]. flatten_cout. reflexivity.
Qed.
End DispatchFacts.

Module VectorFacts.
Section Rand.
Variable generator : Type.
Variable rand : generator -> Z * generator.
Variable RAND_MAX : Z.

(** What the C standard guarantees of [rand]. *)
Hypothesis rand_range : forall g, 0 <= fst (rand g) <= RAND_MAX.

Lemma modify_vector_length (v : list Z) (g : generator) :
  length (fst (modify_vector generator rand v g)) = length v.
Proof.
  revert g. induction v as [|x rest IH]; intros g; cbn [modify_vector].
  - reflexivity.
  - destruct (rand g) as [r g1].
    specialize (IH g1). destruct (modify_vector generator rand rest g1) as [rest' g2].
    cbn [fst length] in *. congruence.
Qed.

Lemma modify_vector_digits (v : list Z) (g : generator) :
  Forall (fun x => 0 <= x <= 9) (fst (modify_vector generator rand v g)).
Proof.
  revert g. induction v as [|x rest IH]; intros g; cbn [modify_vector].
  - constructor.
  - pose proof (rand_range g) as Hr. destruct (rand g) as [r g1]. cbn [fst] in Hr.
    specialize (IH g1). destruct (modify_vector generator rand rest g1) as [rest' g2].
    cbn [fst] in *. constructor; [|exact IH].
    pose proof (Z.rem_bound_pos r 10 ltac:(lia) ltac:(lia)). lia.
Qed.

(** C9.  [modify_vector] keeps the length of the vector, and every
    element it leaves is between 0 and 9. *)
Theorem modify_vector_length_and_range (v : list Z) (g : generator) :
  length (fst (modify_vector generator rand v g)) = length v /\
  Forall (fun x => 0 <= x <= 9) (fst (modify_vector generator rand v g)).
Proof. split; [apply modify_vector_length | apply modify_vector_digits]. Qed.
End Rand.

Lemma sample_rand_range (g : Z) : 0 <= fst (sample_rand g) <= 32767.
Proof.
  unfold sample_rand. cbn [fst].
  pose proof (Z.mod_pos_bound ((g * 1103515245 + 12345) mod 4294967296 / 65536) 32768
                ltac:(lia)).
  lia.
Qed.

Lemma modify_vector_length_and_range_witness :
  (forall g, 0 <= fst (sample_rand g) <= 32767) /\
  length (fst (modify_vector Z sample_rand [0; 1; 2; 3] 1)) = 4%nat /\
  Forall (fun x => 0 <= x <= 9) (fst (modify_vector Z sample_rand [0; 1; 2; 3] 1)).
Proof.
  split; [exact sample_rand_range|].
  exact (modify_vector_length_and_range Z sample_rand 32767 sample_rand_range
           [0; 1; 2; 3] 1).
Defined.
End VectorFacts.

Module VariadicFacts.
Lemma count_char_app (c : ascii) (s1 s2 : string) :
  count_char c (s1 +:+ s2) = (count_char c s1 + count_char c s2)%nat.
Proof.
  induction s1 as [|d s1 IH]; simpl; [reflexivity|].
  rewrite IH. lia.
Qed.

Lemma line_count_render_app (l1 l2 : list tok) :
  line_count (render (l1 ++ l2)) =
  (line_count (render l1) + line_count (render l2))%nat.
Proof.
  unfold line_count. induction l1 as [|t l1 IH]; cbn [app render]; [reflexivity|].
  rewrite !count_char_app, IH. lia.
Qed.

(** What [output_values] writes, from any state: every argument followed
    by [endl], in order, and then the line of the overload without
    parameters.  Nothing else of the state changes. *)
Lemma output_values_trace {F} (args : list value) (s : state F) :
  output_values args s =
  Some (tt, State (cout s ++ flat_map (fun a => [Put a; Endl]) args ++
                    [Put (VStr "This is the final function call.. I am an empty function");
                     Endl])
                  (objs s) (ctrl s) (next s) (ub s)).
Proof.
  revert s. induction args as [|a rest IH]; intros [out os cs n u];
    cbn [output_values flat_map app].
  - exec. flatten_cout. reflexivity.
  - exec. rewrite IH. cbn [cout objs ctrl next ub]. flatten_cout. reflexivity.
Qed.

Lemma line_count_arguments (args : list value) :
  Forall no_line_break args ->
  line_count (render (flat_map (fun a => [Put a; Endl]) args)) = length args.
Proof.
  induction 1 as [|a rest Ha _ IH]; cbn [flat_map length]; [reflexivity|].
  rewrite line_count_render_app, IH. unfold line_count. cbn [render render_tok].
  rewrite !count_char_app. unfold no_line_break in Ha. rewrite Ha. reflexivity.
Qed.

(** C10, as stated, fails for an argument whose text has a line break in
    it: [output_values("a\nb")] is one argument and three lines. *)
Lemma output_values_line_break :
  line_count (render (output_of (output_values [VStr ("a" +:+ String newline "b")])))
  <> S (length [VStr ("a" +:+ String newline "b")]).
Proof. vm_compute. discriminate. Qed.

(** C10, amended.  For an argument list of n values, [output_values]
    writes each argument, in order, each followed by [endl], and then the
    fixed text followed by [endl], once; when no argument's text has a
    line break in it, that is n+1 lines. *)
Theorem output_values_lines {F} (args : list value) (s : state F) :
  exists written s',
    output_values args s = Some (tt, s') /\
    cout s' = cout s ++ written /\
    written = flat_map (fun a => [Put a; Endl]) args ++
              [Put (VStr "This is the final function call.. I am an empty function");
               Endl] /\
    (Forall no_line_break args -> line_count (render written) = S (length args)).
Proof.
  eexists _, _. split; [apply output_values_trace|]. cbn [cout].
  split; [reflexivity|]. split; [reflexivity|]. intros Hargs.
  rewrite line_count_render_app, line_count_arguments by exact Hargs.
  vm_compute (line_count (render [_; _])). lia.
Qed.

Lemma output_values_lines_witness :
  Forall no_line_break [VInt 7; VInt 3; VInt 0; VInt 9; VInt 4] /\
  exists written s',
    output_values [VInt 7; VInt 3; VInt 0; VInt 9; VInt 4] (initial : state unit)
      = Some (tt, s') /\
    cout s' = cout (initial : state unit) ++ written /\
    written = flat_map (fun a => [Put a; Endl]) [VInt 7; VInt 3; VInt 0; VInt 9; VInt 4] ++
              [Put (VStr "This is the final function call.. I am an empty function");
               Endl] /\
    line_count (render written) = 6%nat.
Proof.
  assert (H : Forall no_line_break [VInt 7; VInt 3; VInt 0; VInt 9; VInt 4])
    by (repeat constructor).
  split; [exact H|].
  destruct (output_values_lines [VInt 7; VInt 3; VInt 0; VInt 9; VInt 4]
              (initial : state unit)) as (written & s' & Hrun & Hcout & Hwritten & Hlines).
  exists written, s'.
  split; [exact Hrun|]. split; [exact Hcout|]. split; [exact Hwritten|].
  exact (Hlines H).
Defined.
End VariadicFacts.


(** * Further properties of the code *)

(** Symbolic execution that also reduces the field selections inside one
    pass, so that a long run of output statements stays small. *)
Ltac run_step :=
  cbv beta iota zeta delta
    [bind ret crash run_all run_all_rev put endl print mark_ub alloc free
     object_at dynamic_type get_members set_members construct destroy_as
     new_object delete_expr virtual_to_string make_unique unique_convert
     up_arrow unique_dtor unique_reset set_ctrl drop_ctrl ctrl_at make_shared
     add_owner drop_owner shared_copy shared_dtor shared_reset
     shared_move_assign get_use_count sp_arrow static_pointer_cast
     dynamic_pointer_cast use_count mbind mret M_bind M_ret Cls.lineage
     Cls.derives_from Cls.same
     SharedExample.tbl SharedExample.classes SharedExample.member
     SharedExample.to_string UniqueExample.tbl UniqueExample.classes
     cout objs ctrl next ub up_get sp_get uses made_as fst snd
     members_init ctor_body dtor_body dtor_virtual to_string_body].

Ltac run := repeat (run_step; try machine_lookup).

Module FillFacts.
Lemma fill_from_spec (i vecSize : Z) (v : list Z) :
  fill_from i vecSize v =
  v ++ map (fun k => i + Z.of_nat k) (seq 0 (Z.to_nat (vecSize - i))).
Proof.
  funelim (fill_from i vecSize v).
  - match goal with IH : fill_from _ _ _ = _ ++ _ |- _ => rewrite IH end.
    rewrite <- app_assoc. f_equal.
    replace (Z.to_nat (vecSize - i)) with (S (Z.to_nat (vecSize - (i + 1)))) by lia.
    cbn [seq map app]. rewrite Z.add_0_r. f_equal.
    rewrite <- seq_shift, map_map. apply map_ext. intros; lia.
  - replace (Z.to_nat (vecSize - i)) with 0%nat by lia.
    cbn [seq map]. rewrite app_nil_r. reflexivity.
Qed.

(** X1.  [fill_vector] keeps what the vector holds and appends
    0, 1, ..., vecSize-1 after it, in that order. *)
Theorem fill_vector_appends_count (v : list Z) (vecSize : Z) :
  fill_vector v vecSize = v ++ map Z.of_nat (seq 0 (Z.to_nat vecSize)).
Proof.
  unfold fill_vector. rewrite fill_from_spec, Z.sub_0_r. reflexivity.
Qed.

(** X2.  With a size that is zero or negative the loop body never runs:
    the vector is returned as it was. *)
Theorem fill_vector_nonpositive (v : list Z) (vecSize : Z) (Hsize : vecSize <= 0) :
  fill_vector v vecSize = v.
Proof.
  unfold fill_vector. rewrite fill_from_spec.
  replace (Z.to_nat (vecSize - 0)) with 0%nat by lia.
  cbn [seq map]. apply app_nil_r.
Qed.

Lemma fill_vector_nonpositive_witness :
  -3 <= 0 /\ fill_vector [4; 5] (-3) = [4; 5].
Proof. split; [lia|]. apply (fill_vector_nonpositive [4; 5] (-3)). lia. Defined.
End FillFacts.

Module ModifyFacts.
Section Rand.
Variable generator : Type.
Variable rand : generator -> Z * generator.

(** X3.  One [rand()] per element, in the order of the elements: the new
    contents are the next [length v] random numbers, each reduced by
    [% 10], and the generator is left after exactly that many calls. *)
Theorem modify_vector_draws (v : list Z) (g : generator) :
  modify_vector generator rand v g =
  (map (fun r => Z.rem r 10) (fst (draws generator rand (length v) g)),
   snd (draws generator rand (length v) g)).
Proof.
  revert g. induction v as [|x rest IH]; intros g; cbn [modify_vector draws length].
  - reflexivity.
  - destruct (rand g) as [r g1]. rewrite (IH g1).
    destruct (draws generator rand (length rest) g1) as [rs g2]. reflexivity.
Qed.

(** X4.  What the vector held has no influence: two vectors of the same
    length are modified into the same vector, with the same generator
    state afterwards. *)
Theorem modify_vector_forgets_contents (v v' : list Z) (g : generator)
    (Hlen : length v = length v') :
  modify_vector generator rand v g = modify_vector generator rand v' g.
Proof.
  revert v' g Hlen. induction v as [|x rest IH]; intros [|x' rest'] g Hlen;
    cbn [length] in Hlen; try discriminate; cbn [modify_vector].
  - reflexivity.
  - destruct (rand g) as [r g1]. rewrite (IH rest' g1) by congruence. reflexivity.
Qed.

(** X5.  Modifying a vector is modifying its front part and then its back
    part with the generator the front part left. *)
Theorem modify_vector_app (v1 v2 : list Z) (g : generator) :
  modify_vector generator rand (v1 ++ v2) g =
  let (r1, g1) := modify_vector generator rand v1 g in
  let (r2, g2) := modify_vector generator rand v2 g1 in
  (r1 ++ r2, g2).
Proof.
  revert g. induction v1 as [|x rest IH]; intros g; cbn [app modify_vector].
  - destruct (modify_vector generator rand v2 g). reflexivity.
  - destruct (rand g) as [r g1]. rewrite (IH g1).
    destruct (modify_vector generator rand rest g1) as [r1 g2].
    destruct (modify_vector generator rand v2 g2) as [r2 g3]. reflexivity.
Qed.
End Rand.

Lemma modify_vector_forgets_contents_witness :
  length [5; 6; 7] = length [0; 0; 0] /\
  modify_vector Z sample_rand [5; 6; 7] 1 = modify_vector Z sample_rand [0; 0; 0] 1.
Proof.
  split; [reflexivity|].
  apply (modify_vector_forgets_contents Z sample_rand [5; 6; 7] [0; 0; 0] 1).
  reflexivity.
Defined.
End ModifyFacts.

Module FindFacts.
Lemma find_if_find {X} (pred : X -> bool) (v : list X) :
  match List.find pred v with
  | Some x => (find_if pred v < length v)%nat /\ v !! find_if pred v = Some x
  | None => find_if pred v = length v
  end.
Proof.
  induction v as [|y rest IH]; cbn [List.find find_if length]; [reflexivity|].
  destruct (pred y).
  - split; [lia | reflexivity].
  - destruct (List.find pred rest); cbn [lookup list_lookup].
    + destruct IH. split; [lia | assumption].
    + congruence.
Qed.

(** What [find_if_example] does, from any state: one line, about the first
    even element if there is one.  Nothing else of the state changes. *)
Lemma find_if_example_exec {F} (v : list Z) (s : state F) :
  find_if_example v s =
  Some (tt, State (cout s ++
                     match List.find is_even v with
                     | Some x => [Put (VStr "First even number found was: ");
                                  Put (VInt x); Endl]
                     | None => [Put (VStr "Container did not contain any even numbers");
                                Endl]
                     end)
                  (objs s) (ctrl s) (next s) (ub s)).
Proof.
  destruct s as [out os cs n u]. unfold find_if_example, deref.
  pose proof (find_if_find is_even v) as Hfind.
  destruct (List.find is_even v) as [x|].
  - destruct Hfind as [Hlt Hx].
    replace (find_if is_even v =? length v)%nat with false
      by (symmetry; apply Nat.eqb_neq; lia).
    cbn [negb]. rewrite Hx. run. flatten_cout. reflexivity.
  - rewrite Hfind, Nat.eqb_refl. cbn [negb]. run. flatten_cout. reflexivity.
Qed.

Lemma find_first_even (pre post : list Z) (x : Z) :
  Forall (fun n => Z.even n = false) pre -> Z.even x = true ->
  (forall n, is_even n = Z.even n) ->
  List.find is_even (pre ++ x :: post) = Some x.
Proof.
  intros Hpre Hx Hparity. induction Hpre as [|y pre Hy _ IH]; cbn [app List.find].
  - rewrite Hparity, Hx. reflexivity.
  - rewrite Hparity, Hy. exact IH.
Qed.

Lemma find_no_even (v : list Z) :
  (forall n, is_even n = Z.even n) ->
  List.find is_even v = None <-> Forall (fun n => Z.even n = false) v.
Proof.
  intros Hparity. induction v as [|y rest IH]; cbn [List.find].
  - split; [constructor | reflexivity].
  - rewrite Hparity. destruct (Z.even y) eqn:Hy.
    + split; [discriminate|]. intros Hall. inversion Hall; congruence.
    + rewrite IH. split; [constructor; assumption|]. intros Hall. inversion Hall; assumption.
Qed.

Lemma is_even_parity (n : Z) : is_even n = Z.even n.
Proof.
  unfold is_even.
  pose proof (Z.quot_rem' n 2) as Hdiv.
  pose proof (Z.rem_bound_abs n 2 ltac:(lia)) as Hbound.
  assert (Heven : Z.even n = Z.even (Z.rem n 2)).
  { rewrite Hdiv at 1. rewrite Z.add_comm. apply Z.even_add_mul_2. }
  rewrite Heven.
  assert (Hcases : Z.rem n 2 = -1 \/ Z.rem n 2 = 0 \/ Z.rem n 2 = 1) by lia.
  destruct Hcases as [H | [H | H]]; rewrite H; reflexivity.
Qed.

(** X6.  The lambda [(n % 2) == 0] accepts exactly the multiples of 2, the
    negative ones included (the remainder of a negative odd number is -1,
    which is not 0). *)
Theorem is_even_multiples_of_two (n : Z) :
  is_even n = true <-> exists k, n = 2 * k.
Proof.
  rewrite is_even_parity, Z.even_spec. unfold Z.Even. reflexivity.
Qed.

(** X7.  When the vector holds an even number, the line printed reports the
    first one: the element in front of which every element is odd. *)
Theorem find_if_example_first_even {F} (pre post : list Z) (x : Z) (s : state F)
    (Hpre : Forall (fun n => Z.even n = false) pre) (Hx : Z.even x = true) :
  find_if_example (pre ++ x :: post) s =
  Some (tt, State (cout s ++ [Put (VStr "First even number found was: ");
                              Put (VInt x); Endl])
                  (objs s) (ctrl s) (next s) (ub s)).
Proof.
  rewrite find_if_example_exec, (find_first_even pre post x Hpre Hx is_even_parity).
  reflexivity.
Qed.

Lemma find_if_example_first_even_witness :
  Forall (fun n => Z.even n = false) [7; -3] /\ Z.even (-4) = true /\
  find_if_example ([7; -3] ++ -4 :: [2; 5]) (initial : state unit) =
  Some (tt, State [Put (VStr "First even number found was: "); Put (VInt (-4)); Endl]
                  ∅ ∅ 0%nat false).
Proof.
  assert (Hpre : Forall (fun n => Z.even n = false) [7; -3]) by (repeat constructor).
  split; [exact Hpre|]. split; [reflexivity|].
  exact (find_if_example_first_even [7; -3] [2; 5] (-4) initial Hpre eq_refl).
Defined.

(** X8.  The line [Container did not contain any even numbers] is printed
    exactly when every element is odd; an empty vector is such a case. *)
Theorem find_if_example_no_even {F} (v : list Z) (s : state F) :
  find_if_example v s =
  Some (tt, State (cout s ++ [Put (VStr "Container did not contain any even numbers");
                              Endl])
                  (objs s) (ctrl s) (next s) (ub s))
  <-> Forall (fun n => Z.even n = false) v.
Proof.
  rewrite find_if_example_exec, <- (find_no_even v is_even_parity).
  destruct (List.find is_even v) as [x|].
  - split; [|discriminate]. intros Heq. exfalso.
    injection Heq as Heq. apply app_inv_head in Heq. discriminate.
  - split; reflexivity.
Qed.

(** X9.  After [modify_vector] (with [rand()] in its range) the line of
    [find_if_example] either reports one of 0, 2, 4, 6, 8 or says that there
    is no even number. *)
Theorem find_after_modify {F} (generator : Type) (rand : generator -> Z * generator)
    (RAND_MAX : Z) (Hrand : forall g, 0 <= fst (rand g) <= RAND_MAX)
    (v : list Z) (g : generator) (s : state F) :
  exists line,
    find_if_example (fst (modify_vector generator rand v g)) s =
    Some (tt, State (cout s ++ line) (objs s) (ctrl s) (next s) (ub s)) /\
    (line = [Put (VStr "Container did not contain any even numbers"); Endl] \/
     exists x, (x = 0 \/ x = 2 \/ x = 4 \/ x = 6 \/ x = 8) /\
       line = [Put (VStr "First even number found was: "); Put (VInt x); Endl]).
Proof.
  pose proof (VectorFacts.modify_vector_digits generator rand RAND_MAX Hrand v g) as Hdigits.
  eexists. split; [apply find_if_example_exec|].
  destruct (List.find is_even (fst (modify_vector generator rand v g))) as [x|] eqn:Hfind;
    [right | left; reflexivity].
  apply find_some in Hfind as [Hin Heven].
  rewrite List.Forall_forall in Hdigits. apply Hdigits in Hin.
  rewrite is_even_parity in Heven.
  exists x. split; [|reflexivity].
  assert (Hx : x = 0 \/ x = 1 \/ x = 2 \/ x = 3 \/ x = 4 \/ x = 5 \/ x = 6 \/
               x = 7 \/ x = 8 \/ x = 9) by lia.
  repeat (destruct Hx as [Hx | Hx]; [subst x; first [discriminate Heven | tauto]|]).
  subst x; discriminate Heven.
Qed.

Lemma find_after_modify_witness :
  (forall g, 0 <= fst (sample_rand g) <= 32767) /\
  exists line,
    find_if_example (fst (modify_vector Z sample_rand [0; 1; 2] 1)) (initial : state unit) =
    Some (tt, State ([] ++ line) ∅ ∅ 0%nat false) /\
    (line = [Put (VStr "Container did not contain any even numbers"); Endl] \/
     exists x, (x = 0 \/ x = 2 \/ x = 4 \/ x = 6 \/ x = 8) /\
       line = [Put (VStr "First even number found was: "); Put (VInt x); Endl]).
Proof.
  split; [exact VectorFacts.sample_rand_range|].
  exact (find_after_modify Z sample_rand 32767 VectorFacts.sample_rand_range
           [0; 1; 2] 1 initial).
Defined.
End FindFacts.

Module IntArgumentFacts.
Lemma digits_no_line_break (d : Decimal.uint) :
  count_char newline (DecimalString.NilEmpty.string_of_uint d) = 0%nat.
Proof. induction d; cbn [DecimalString.NilEmpty.string_of_uint count_char]; auto. Qed.

Lemma int_no_line_break (z : Z) : no_line_break (VInt z).
Proof.
  unfold no_line_break, text_of, DecimalString.NilZero.string_of_int,
    DecimalString.NilZero.string_of_uint.
  destruct (Z.to_int z) as [d | d]; destruct d;
    cbn [count_char]; rewrite ?digits_no_line_break;
    try reflexivity;
    cbn [DecimalString.NilEmpty.string_of_uint count_char];
    rewrite ?digits_no_line_break; reflexivity.
Qed.

(** X10.  For [int] arguments, as [main] passes them, [output_values]
    prints exactly one line per argument and the closing line: n+1 lines
    for n arguments, whatever the numbers are. *)
Theorem output_values_ints_lines {F} (zs : list Z) (s : state F) :
  exists written s',
    output_values (map VInt zs) s = Some (tt, s') /\
    cout s' = cout s ++ written /\
    line_count (render written) = S (length zs).
Proof.
  eexists _, _. split; [apply VariadicFacts.output_values_trace|]. cbn [cout].
  split; [reflexivity|].
  rewrite VariadicFacts.line_count_render_app, VariadicFacts.line_count_arguments.
  - rewrite length_map. vm_compute (line_count (render [_; _])). lia.
  - clear s. induction zs as [|z zs IH]; cbn [map]; constructor;
      [apply int_no_line_break | exact IH].
Qed.
End IntArgumentFacts.

Module LifetimeFacts.
Import SharedExample.

(** Closes [m' = m] where [m'] is [m] after insertions and deletions at
    addresses that were free in [m]. *)
Ltac restore_map Hfree :=
  apply map_eq; intros ?;
  repeat (rewrite lookup_delete || rewrite lookup_insert);
  repeat case_decide; subst;
  first [ reflexivity | symmetry; apply Hfree; lia | lia ].

(** X11.  Line 176 calls [downCastPtr->to_string()] without testing the
    result of the conversion.  When basePtr is empty or owns a live [A],
    [dynamic_pointer_cast<B>] returns an empty pointer and changes nothing;
    dereferencing an empty pointer fails in every state; so lines 175-176
    end in that null dereference. *)
Theorem go_down_without_B_crashes (s : state string) (basePtr : shared_ptr Cls.A)
    (Hok : owner_ok s basePtr)
    (Hnot : pointee_type s basePtr <> Some Cls.B) :
  dynamic_pointer_cast Cls.B basePtr s = Some (SharedPtr Cls.B None, s) /\
  (forall s1 : state string, to_string (SharedPtr Cls.B None) s1 = None) /\
  go_down basePtr s = None.
Proof.
  assert (Hcast : dynamic_pointer_cast Cls.B basePtr s = Some (SharedPtr Cls.B None, s)).
  { destruct s as [out os cs n u], basePtr as [[this|]];
      unfold owner_ok, pointee_type in *; cbn [sp_get objs ctrl] in *.
    - destruct Hok as [[[c f] Hobj] _]. rewrite Hobj in Hnot.
      run. rewrite Hobj. run.
      destruct c; [reflexivity|]. exfalso. apply Hnot. reflexivity.
    - reflexivity. }
  split; [exact Hcast|]. split; [reflexivity|].
  unfold go_down. unfold mbind at 1. unfold M_bind, bind. rewrite Hcast.
  destruct s. run. reflexivity.
Qed.

Lemma go_down_without_B_crashes_witness :
  let s := State [] {[ 0%nat := (Cls.A, "A") ]} {[ 0%nat := CtrlBlock 1 Cls.A ]} 1%nat false in
  let basePtr := SharedPtr Cls.A (Some 0%nat) in
  owner_ok s basePtr /\ pointee_type s basePtr <> Some Cls.B /\
  dynamic_pointer_cast Cls.B basePtr s = Some (SharedPtr Cls.B None, s) /\
  (forall s1 : state string, to_string (SharedPtr Cls.B None) s1 = None) /\
  go_down basePtr s = None.
Proof.
  intros s basePtr.
  assert (Hok : owner_ok s basePtr) by (split; vm_compute; eauto).
  assert (Hnot : pointee_type s basePtr <> Some Cls.B) by (vm_compute; discriminate).
  split; [exact Hok|]. split; [exact Hnot|].
  exact (go_down_without_B_crashes s basePtr Hok Hnot).
Defined.

(** X12.  [shared_pointer_example] leaks nothing and runs no undefined
    behaviour: started on a store whose allocator is sound, it returns with
    the objects and control blocks exactly as it found them, after three
    allocations. *)
Theorem shared_pointer_example_restores_store (s : state string)
    (Hfresh : fresh_above s) :
  exists s',
    shared_pointer_example s = Some (tt, s') /\
    objs s' = objs s /\ ctrl s' = ctrl s /\
    next s' = (next s + 3)%nat /\ ub s' = ub s.
Proof.
  destruct s as [out os cs n u]. unfold fresh_above in Hfresh. cbn [next objs ctrl] in Hfresh.
  assert (Ho : forall a, (n <= a)%nat -> os !! a = None) by (intros; apply Hfresh; lia).
  assert (Hc : forall a, (n <= a)%nat -> cs !! a = None) by (intros; apply Hfresh; lia).
  SharedFacts.unfold_example. run. eexists. split; [reflexivity|].
  cbn [objs ctrl next ub].
  split; [restore_map Ho|]. split; [restore_map Hc|]. split; [lia | reflexivity].
Qed.

Lemma shared_pointer_example_restores_store_witness :
  fresh_above (initial : state string) /\
  exists s',
    shared_pointer_example initial = Some (tt, s') /\
    objs s' = objs (initial : state string) /\ ctrl s' = ctrl (initial : state string) /\
    next s' = (next (initial : state string) + 3)%nat /\
    ub s' = ub (initial : state string).
Proof.
  assert (Hfresh : fresh_above (initial : state string))
    by (intros a _; split; reflexivity).
  split; [exact Hfresh|]. exact (shared_pointer_example_restores_store initial Hfresh).
Defined.

(** X13.  [unique_pointer_example] frees all the storage it allocates,
    the [B] of ptrC included, but it does execute undefined behaviour:
    whatever the state it starts in, the flag is set when it returns. *)
Theorem unique_pointer_example_frees_storage (s : state unit)
    (Hfresh : fresh_above s) :
  exists s',
    UniqueExample.unique_pointer_example s = Some (tt, s') /\
    objs s' = objs s /\ ctrl s' = ctrl s /\
    next s' = (next s + 3)%nat /\ ub s' = true.
Proof.
  destruct s as [out os cs n u]. unfold fresh_above in Hfresh. cbn [next objs ctrl] in Hfresh.
  assert (Ho : forall a, (n <= a)%nat -> os !! a = None) by (intros; apply Hfresh; lia).
  UniqueFacts.unfold_example. run. eexists. split; [reflexivity|].
  cbn [objs ctrl next ub].
  split; [restore_map Ho|]. split; [reflexivity|]. split; [lia | reflexivity].
Qed.

Lemma unique_pointer_example_frees_storage_witness :
  fresh_above (initial : state unit) /\
  exists s',
    UniqueExample.unique_pointer_example initial = Some (tt, s') /\
    objs s' = objs (initial : state unit) /\ ctrl s' = ctrl (initial : state unit) /\
    next s' = (next (initial : state unit) + 3)%nat /\ ub s' = true.
Proof.
  assert (Hfresh : fresh_above (initial : state unit))
    by (intros a _; split; reflexivity).
  split; [exact Hfresh|]. exact (unique_pointer_example_frees_storage initial Hfresh).
Defined.
End LifetimeFacts.

Module OwnershipFacts.
Import SharedExample.

(** X14.  Line 170 is where the [A] that basePtr owned dies: it is alive
    before the assignment and gone after it, its [A Destroyed] is the first
    thing the assignment prints, and the [B] then has two owners. *)
Theorem reassignment_destroys_previous (s : state string) :
  exists basePtr derivedPtr basePtr' a b s1 s2 rest,
    base_and_derived s = Some ((basePtr, derivedPtr), s1) /\
    sp_get basePtr = Some a /\ sp_get derivedPtr = Some b /\ a <> b /\
    objs s1 !! a = Some (Cls.A, "A") /\
    use_count basePtr s1 = 1%nat /\ use_count derivedPtr s1 = 1%nat /\
    go_up basePtr derivedPtr s1 = Some (basePtr', s2) /\
    cout s2 = cout s1 ++ [Put (VStr "A Destroyed"); Endl] ++ rest /\
    objs s2 !! a = None /\ ctrl s2 !! a = None /\
    objs s2 !! b = Some (Cls.B, "B") /\
    use_count derivedPtr s2 = 2%nat.
Proof.
  destruct s as [out os cs n u]. SharedFacts.unfold_example. run.
  do 8 eexists. split; [reflexivity|]. cbn [sp_get].
  split; [reflexivity|]. split; [reflexivity|]. split; [lia|]. run.
  split; [reflexivity|]. split; [reflexivity|]. split; [reflexivity|].
  split; [reflexivity|]. cbn [cout]. flatten_cout.
  split; [reflexivity|]. run. auto.
Qed.

(** X15.  At the closing brace the [B] has three owners.  The destructors
    of downCastPtr and derivedPtr print nothing and leave it alive; the
    destructor of basePtr, the last owner, destroys it once, [B]'s teardown
    before [A]'s, although basePtr is a [shared_ptr<A>] and [~A()] is not
    virtual. *)
Theorem last_of_three_owners_destroys (s : state string) :
  exists basePtr derivedPtr basePtr' downCastPtr b s1 s2 s3 s4 s5 s6 s7,
    base_and_derived s = Some ((basePtr, derivedPtr), s1) /\
    go_up basePtr derivedPtr s1 = Some (basePtr', s2) /\
    go_down basePtr' s2 = Some (downCastPtr, s3) /\
    final_report derivedPtr s3 = Some (tt, s4) /\
    sp_get derivedPtr = Some b /\
    shared_dtor tbl downCastPtr s4 = Some (tt, s5) /\
    cout s5 = cout s4 /\ use_count derivedPtr s5 = 2%nat /\
    shared_dtor tbl derivedPtr s5 = Some (tt, s6) /\
    cout s6 = cout s4 /\ use_count basePtr' s6 = 1%nat /\
    objs s6 !! b = Some (Cls.B, "B") /\
    shared_dtor tbl basePtr' s6 = Some (tt, s7) /\
    cout s7 = cout s4 ++ [Put (VStr "B:A Destoyed"); Endl;
                          Put (VStr "A Destroyed"); Endl] /\
    objs s7 !! b = None /\ ub s7 = ub s.
Proof.
  destruct s as [out os cs n u]. SharedFacts.unfold_example. run.
  do 12 eexists. split; [reflexivity|]. run. split; [reflexivity|]. run.
  split; [reflexivity|]. run. split; [reflexivity|]. cbn [sp_get].
  split; [reflexivity|]. run. split; [reflexivity|]. split; [reflexivity|].
  run. split; [reflexivity|]. split; [reflexivity|]. split; [reflexivity|].
  run. split; [reflexivity|]. split; [reflexivity|]. split; [reflexivity|].
  cbn [cout]. flatten_cout. split; [reflexivity|]. run. auto.
Qed.

(** X16.  Going up and then down comes back to the same object: for a
    derived-typed owner of a live [B], [static_pointer_cast<A>] followed by
    [dynamic_pointer_cast<B>] returns an owner of that [B], nothing is
    printed or destroyed, and the [B] has two owners more than before. *)
Theorem up_then_down_same_object (s : state string) (derivedPtr : shared_ptr Cls.B)
    (b : addr) (f : string) (cb : ctrl_block)
    (Hptr : sp_get derivedPtr = Some b)
    (Hobj : objs s !! b = Some (Cls.B, f))
    (Hcb : ctrl s !! b = Some cb) :
  exists downCastPtr s',
    (basePtr ← static_pointer_cast Cls.A derivedPtr;
     dynamic_pointer_cast Cls.B basePtr) s = Some (downCastPtr, s') /\
    sp_get downCastPtr = Some b /\
    use_count derivedPtr s' = (use_count derivedPtr s + 2)%nat /\
    cout s' = cout s /\ objs s' = objs s.
Proof.
  destruct s as [out os cs n u], derivedPtr as [p]. cbn [sp_get objs ctrl] in *.
  subst p. run. rewrite Hcb. run. rewrite Hobj. run.
  do 2 eexists. split; [reflexivity|]. cbn [sp_get]. split; [reflexivity|].
  run. split; [lia|]. split; reflexivity.
Qed.

Lemma up_then_down_same_object_witness :
  let s := State [] {[ 0%nat := (Cls.B, "B") ]} {[ 0%nat := CtrlBlock 1 Cls.B ]} 1%nat false in
  let derivedPtr := SharedPtr Cls.B (Some 0%nat) in
  exists downCastPtr s',
    (basePtr ← static_pointer_cast Cls.A derivedPtr;
     dynamic_pointer_cast Cls.B basePtr) s = Some (downCastPtr, s') /\
    sp_get downCastPtr = Some 0%nat /\
    use_count derivedPtr s' = (use_count derivedPtr s + 2)%nat /\
    cout s' = cout s /\ objs s' = objs s.
Proof.
  intros s derivedPtr.
  exact (up_then_down_same_object s derivedPtr 0%nat "B" (CtrlBlock 1 Cls.B)
           eq_refl eq_refl eq_refl).
Defined.
End OwnershipFacts.


Module MainFacts.
Section Rand.
Variable generator : Type.
Variable rand : generator -> Z * generator.

(** X17.  [main] runs to its end whatever [rand()] returns.  With [ds] the
    twenty numbers [modify_vector] leaves in the vector, it prints them on
    one line, then the line of [find_if_example] for them, then the first
    five of them one per line and the closing line of [output_values], then
    the two pointer demonstrations; the generator is the one [modify_vector]
    left, no object and no control block is left in the store, and
    undefined behaviour has been executed (in [unique_pointer_example]). *)
Theorem main_output (g : generator) :
  exists ds g' s,
    modify_vector generator rand (fill_vector [] 20) g = (ds, g') /\
    length ds = 20%nat /\
    main generator rand g initial = Some (g', s) /\
    cout s =
      [Put (VStr "What is in the vector? "); Endl] ++
      flat_map (fun d => [Put (VInt d); Put (VStr " ")]) ds ++ [Endl] ++
      find_line ds ++
      [Endl;
       Put (VStr "We'll ask the variadic function to access the values from index 0, ascending");
       Endl] ++
      flat_map (fun d => [Put (VInt d); Endl]) (take 5 ds) ++
      [Put (VStr "This is the final function call.. I am an empty function"); Endl] ++
      [Endl; Put (VStr "---- Unique pointers: "); Endl] ++ unique_output ++
      [Endl; Put (VStr "---- Shared pointers: "); Endl] ++ shared_output 3%nat /\
    objs s = ∅ /\ ctrl s = ∅ /\ ub s = true.
Proof.
  pose proof (VectorFacts.modify_vector_length generator rand (fill_vector [] 20) g) as Hlen.
  unfold main, show_vector, deref, call_local.
  destruct (modify_vector generator rand (fill_vector [] 20) g) as [ds g'].
  cbn [fst] in Hlen.
  replace (length (fill_vector [] 20)) with 20%nat in Hlen by (vm_compute; reflexivity).
  exists ds, g'.
  do 20 (destruct ds as [|? ds]; [discriminate Hlen|]).
  destruct ds; [|discriminate Hlen].
  unfold initial. cbn [lookup list_lookup Nat.add output_values]. run.
  rewrite FindFacts.find_if_example_exec. run.
  UniqueFacts.unfold_example. run. SharedFacts.unfold_example. run.
  eexists. split; [reflexivity|]. split; [reflexivity|]. split; [reflexivity|].
  cbn [cout objs ctrl ub]. split.
  - flatten_cout. unfold unique_output, shared_output, find_line. cbn [flat_map take app].
    rewrite <- ?app_assoc. reflexivity.
  - split; [vm_compute; reflexivity|]. split; [vm_compute; reflexivity | reflexivity].
Qed.
End Rand.
End MainFacts.
